(** * fetch_reddit.py: a shallow embedding and its checked properties

    The script [bin/fetch_reddit.py] reads one URL argument and a few
    environment variables, asks the PRAW client for a submission and its
    comments, renders every comment that has a body into a two-line text
    block and prints one JSON object.

    Layout of this development:
    - [Py]: the fragment of Python the script relies on (values,
      truthiness, [str()], [int()], string repetition, [json.dumps],
      exceptions, the console);
    - [Praw]: the capability surface of the external client;
    - [FetchReddit]: [render_comment] and [main], line by line;
    - the properties of the specification.

    Python [str] values are represented by [string]; one [ascii] stands
    for one code point below 256. *)

From Stdlib Require Import ZArith String Ascii DecimalString DecimalPos List
  Lia Bool.
From stdpp Require Import gmap strings list.

Open Scope Z_scope.

(** ** The Python fragment *)
Module Py.

(** Exceptions that can reach the top level of the script.  [SystemExit]
    carries the status given to [sys.exit]; [ClientError] stands for
    whatever the PRAW client raises (invalid URL, authentication or
    network failure). *)
Inductive exn : Type :=
  | SystemExit (code : Z)
  | AttributeError (name : string)
  | IndexError
  | TypeError
  | ClientError (what : string).

Definition is_exit (e : exn) : bool :=
  match e with
  | SystemExit _ => true
  | _ => false
  end.

Inductive result (A : Type) : Type :=
  | Ok (a : A)
  | Raise (e : exn).
Arguments Ok {A} a.
Arguments Raise {A} e.

#[export] Instance result_ret : MRet result := fun A a => Ok a.
#[export] Instance result_bind : MBind result := fun A B f m =>
  match m with
  | Ok a => f a
  | Raise e => Raise e
  end.

(** A computation that raises nothing but ordinary exceptions. *)
Definition plain {A : Type} (m : result A) : Prop :=
  ∀ e, m = Raise e → is_exit e = false.

(** Values held by the attributes the script reads.  [PyModel name] is a
    PRAW model object (a [Redditor], a [Subreddit]): always truthy, and
    [str()] of it is its name. *)
Inductive value : Type :=
  | PyNone
  | PyInt (z : Z)
  | PyStr (s : string)
  | PyModel (name : string).

(** An object is its attribute dictionary. *)
Abbreviation object := (gmap string value).

Definition nl : string := String "010" "".
Definition dquote : string := String "034" "".
Definition backslash : string := String "092" "".

Definition str_nonempty (s : string) : bool :=
  match s with
  | EmptyString => false
  | String _ _ => true
  end.

(** [bool(v)]. *)
Definition truthy (v : value) : bool :=
  match v with
  | PyNone => false
  | PyInt z => negb (z =? 0)
  | PyStr s => str_nonempty s
  | PyModel _ => true
  end.

Definition is_none (v : value) : bool :=
  match v with
  | PyNone => true
  | _ => false
  end.

(** Decimal text of an integer, as [str(n)] and [json.dumps(n)] give it. *)
Definition dec (z : Z) : string := NilZero.string_of_int (Z.to_int z).

(** The number a digit sequence denotes, most significant digit first,
    on top of the digits already read. *)
Fixpoint uint_value (acc : Z) (d : Decimal.uint) : Z :=
  match d with
  | Decimal.Nil => acc
  | Decimal.D0 l => uint_value (10 * acc + 0) l
  | Decimal.D1 l => uint_value (10 * acc + 1) l
  | Decimal.D2 l => uint_value (10 * acc + 2) l
  | Decimal.D3 l => uint_value (10 * acc + 3) l
  | Decimal.D4 l => uint_value (10 * acc + 4) l
  | Decimal.D5 l => uint_value (10 * acc + 5) l
  | Decimal.D6 l => uint_value (10 * acc + 6) l
  | Decimal.D7 l => uint_value (10 * acc + 7) l
  | Decimal.D8 l => uint_value (10 * acc + 8) l
  | Decimal.D9 l => uint_value (10 * acc + 9) l
  end.

(** [str(v)], which is also what an f-string field [{v}] inserts. *)
Definition str (v : value) : string :=
  match v with
  | PyNone => "None"
  | PyInt z => dec z
  | PyStr s => s
  | PyModel name => name
  end.

(** [a or b]. *)
Definition or_ (a b : value) : value := if truthy a then a else b.

(** [getattr(o, name, default)]. *)
Definition getattr (o : object) (name : string) (dflt : value) : value :=
  default dflt (o !! name).

(** [o.name]. *)
Definition attr (o : object) (name : string) : result value :=
  match o !! name with
  | Some v => Ok v
  | None => Raise (AttributeError name)
  end.

Fixpoint repeat_str (s : string) (n : nat) : string :=
  match n with
  | O => ""
  | S k => s +:+ repeat_str s k
  end.

(** [s * v]: a count that is zero or negative gives the empty string, a
    count that is not an integer is a [TypeError].  The count is taken
    within what the interpreter can index and allocate; beyond that it
    raises [OverflowError] or [MemoryError], which no nesting depth of a
    comment reaches and which is outside this model. *)
Definition str_mul (s : string) (v : value) : result string :=
  match v with
  | PyInt n => Ok (repeat_str s (Z.to_nat n))
  | _ => Raise TypeError
  end.

(** Whether the character [c] occurs in [s]. *)
Fixpoint contains (c : ascii) (s : string) : bool :=
  match s with
  | EmptyString => false
  | String a r => Ascii.eqb a c || contains c r
  end.

(** Whether every character of [s] satisfies [p]. *)
Fixpoint all_chars (p : ascii → bool) (s : string) : bool :=
  match s with
  | EmptyString => true
  | String a r => p a && all_chars p r
  end.

(** The printable ASCII range, SPACE to TILDE. *)
Definition printable (c : ascii) : bool :=
  let n := nat_of_ascii c in ((32 <=? n) && (n <=? 126))%nat.

(** [sep.join(parts)]. *)
Definition join (sep : string) (parts : list string) : string :=
  String.concat sep parts.

(** *** [int(s)] on a string

    The grammar of [int] in base 10: optional white space, an optional
    sign, decimal digits that single underscores may separate, optional
    white space.  [None] is the [ValueError] case.  Below code point 256
    the white space accepted is TAB..CR, SPACE, NEL and NBSP, and the only
    decimal digits are 0..9.  [cap] is the interpreter's setting
    [sys.flags.int_max_str_digits] (4300 unless configured otherwise, 0
    for no cap): a literal of more than 640 digits that exceeds a
    non-zero cap is rejected too.  Every digit counts, leading zeros
    included; the sign, underscores and white space do not. *)
Definition is_space (c : ascii) : bool :=
  let n := nat_of_ascii c in
  ((9 <=? n) && (n <=? 13) || (n =? 32) || (n =? 133) || (n =? 160))%nat.

Definition is_digit (c : ascii) : bool :=
  let n := nat_of_ascii c in ((48 <=? n) && (n <=? 57))%nat.

Definition digit_value (c : ascii) : Z := Z.of_nat (nat_of_ascii c) - 48.

Definition is_underscore (c : ascii) : bool := (nat_of_ascii c =? 95)%nat.

Fixpoint lstrip (s : string) : string :=
  match s with
  | String c r => if is_space c then lstrip r else s
  | EmptyString => EmptyString
  end.

(** Whether [ndigits] digits are more than the cap allows. *)
Definition over_cap (cap ndigits : nat) : bool :=
  ((640 <? ndigits) && (0 <? cap) && (cap <? ndigits))%nat.

Definition scan_end (cap : nat) (prev_us : bool) (ndigits : nat) (acc : Z)
    (rest : string) : option (Z * string) :=
  if prev_us || (ndigits =? 0)%nat || over_cap cap ndigits then None
  else Some (acc, rest).

Fixpoint scan_digits (cap : nat) (s : string) (prev_us : bool) (ndigits : nat)
    (acc : Z) : option (Z * string) :=
  match s with
  | String c r =>
      if is_digit c
      then scan_digits cap r false (S ndigits) (10 * acc + digit_value c)
      else if is_underscore c then
        if prev_us then None else scan_digits cap r true ndigits acc
      else scan_end cap prev_us ndigits acc s
  | EmptyString => scan_end cap prev_us ndigits acc s
  end.

Definition split_sign (s : string) : Z * string :=
  match s with
  | String "+" r => (1, r)
  | String "-" r => (-1, r)
  | _ => (1, s)
  end.

Definition leading_underscore (s : string) : bool :=
  match s with
  | String c _ => is_underscore c
  | EmptyString => false
  end.

(** The characters an integer literal is made of. *)
Definition int_char (c : ascii) : bool :=
  is_space c || is_digit c || is_underscore c
  || Ascii.eqb c "+" || Ascii.eqb c "-".

Definition int (cap : nat) (s : string) : option Z :=
  let '(sign, body) := split_sign (lstrip s) in
  if leading_underscore body then None
  else
    match scan_digits cap body false 0 0 with
    | Some (n, rest) =>
        if str_nonempty (lstrip rest) then None else Some (sign * n)
    | None => None
    end.

(** *** [json.dumps]

    What the script serialises: a dictionary with string keys whose
    values are scalars or lists of scalars.  Defaults of [json.dumps]:
    [ensure_ascii=True], separators [", "] and [": "], no indentation. *)
Inductive item : Type :=
  | Scalar (v : value)
  | ListOf (vs : list value).

Abbreviation dict := (list (string * item)).


Definition hex_digit (n : nat) : ascii :=
  ascii_of_nat (if (n <? 10)%nat then 48 + n else 87 + n).

(** One character of a string literal: the short escapes, the printable
    ASCII range as it is, everything else as a [\u] escape with four
    lower-case hexadecimal digits. *)
Definition escape_char (c : ascii) : string :=
  let n := nat_of_ascii c in
  if (n =? 34)%nat then backslash +:+ dquote
  else if (n =? 92)%nat then backslash +:+ backslash
  else if (n =? 10)%nat then backslash +:+ "n"
  else if (n =? 13)%nat then backslash +:+ "r"
  else if (n =? 9)%nat then backslash +:+ "t"
  else if (n =? 8)%nat then backslash +:+ "b"
  else if (n =? 12)%nat then backslash +:+ "f"
  else if ((32 <=? n) && (n <=? 126))%nat then String c ""
  else backslash +:+ "u00"
       +:+ String (hex_digit (n / 16)) (String (hex_digit (n mod 16)) "").

Fixpoint escape (s : string) : string :=
  match s with
  | EmptyString => ""
  | String c r => escape_char c +:+ escape r
  end.

Definition encode_basestring_ascii (s : string) : string :=
  dquote +:+ escape s +:+ dquote.

Definition encode_value (v : value) : result string :=
  match v with
  | PyNone => Ok "null"
  | PyInt z => Ok (dec z)
  | PyStr s => Ok (encode_basestring_ascii s)
  | PyModel _ => Raise TypeError
  end.

Fixpoint encode_values (vs : list value) : result (list string) :=
  match vs with
  | [] => Ok []
  | v :: rest =>
      t ← encode_value v;
      ts ← encode_values rest;
      Ok (t :: ts)
  end.

Definition encode_item (i : item) : result string :=
  match i with
  | Scalar v => encode_value v
  | ListOf vs =>
      ts ← encode_values vs;
      Ok ("[" +:+ join ", " ts +:+ "]")
  end.

Fixpoint encode_pairs (d : dict) : result (list string) :=
  match d with
  | [] => Ok []
  | (k, i) :: rest =>
      t ← encode_item i;
      ts ← encode_pairs rest;
      Ok ((encode_basestring_ascii k +:+ ": " +:+ t) :: ts)
  end.

Definition dumps (d : dict) : result string :=
  ts ← encode_pairs d;
  Ok ("{" +:+ join ", " ts +:+ "}").

(** *** The console and the process

    A computation threads the two output streams and may raise.  What was
    written before an exception stays written. *)
Record console : Type := Console { stdout : string; stderr : string }.

Definition io (A : Type) : Type := console → console * result A.

#[export] Instance io_ret : MRet io := fun A a c => (c, Ok a).
#[export] Instance io_bind : MBind io := fun A B f m c =>
  match m c with
  | (c', Ok a) => f a c'
  | (c', Raise e) => (c', Raise e)
  end.

Definition lift {A : Type} (r : result A) : io A := fun c => (c, r).

Definition stdout_write (s : string) : io unit :=
  fun c => (Console (stdout c +:+ s) (stderr c), Ok tt).

Definition stderr_write (s : string) : io unit :=
  fun c => (Console (stdout c) (stderr c +:+ s), Ok tt).

(** [print(s)]. *)
Definition print (s : string) : io unit := stdout_write (s +:+ nl).

(** [sys.exit(code)]. *)
Definition sys_exit {A : Type} (code : Z) : io A :=
  fun c => (c, Raise (SystemExit code)).

(** What the operating system observes.  [errors] holds what the script
    itself wrote to standard error; the traceback the interpreter adds
    for an uncaught exception is not part of it. *)
Record outcome : Type := Outcome { status : Z; output : string; errors : string }.

(** Running a program from an empty console: status 0 when it returns,
    the given status on [sys.exit], status 1 on any other exception that
    nobody caught. *)
Definition run (prog : io unit) : outcome :=
  match prog (Console "" "") with
  | (c, Ok _) => Outcome 0 (stdout c) (stderr c)
  | (c, Raise (SystemExit code)) => Outcome code (stdout c) (stderr c)
  | (c, Raise _) => Outcome 1 (stdout c) (stderr c)
  end.

End Py.

(** ** The external client

    PRAW is not part of the repository.  The script uses four of its
    capabilities; each one that talks to the network may fail, and a
    failure reaches the script as an ordinary exception. *)
Module Praw.

Inductive response (A : Type) : Type :=
  | Got (a : A)
  | Failed (what : string).
Arguments Got {A} a.
Arguments Failed {A} what.

(** A call into the client, seen from the script. *)
Definition call {A : Type} (r : response A) : Py.result A :=
  match r with
  | Got a => Py.Ok a
  | Failed what => Py.Raise (Py.ClientError what)
  end.

(** A submission handle.  [load sort] is the lazy fetch triggered by the
    first attribute read (it authenticates) and yields the attribute
    dictionary;
    [replace_more sort] resolves every placeholder of the comment forest
    ([limit=None]) and yields its flattened sequence ([comments.list()]).
    Both depend on the [comment_sort] set on the handle beforehand. *)
Record handle : Type := Handle {
  load : string → response Py.object;
  replace_more : string → response (list Py.object)
}.

(** [reddit.submission(url=...)]: the URL is resolved to a handle. *)
Record reddit : Type := Reddit {
  submission : string → response handle
}.

(** [praw.Reddit(client_id=, client_secret=, user_agent=,
    check_for_async=False)]. *)
Definition client : Type := string → string → string → reddit.

End Praw.

(** ** The script *)
Module FetchReddit.
Import Py.

(** [render_comment], lines 70-80. *)
Definition render_comment (comment : object) : result string :=
  a ← attr comment "author";
  let author := if truthy a then "u/" +:+ str a else "[deleted]" in
  let score := getattr comment "score" PyNone in
  let header_parts := [author] in
  let header_parts :=
    if is_none score then header_parts
    else header_parts ++ ["(score: " +:+ str score +:+ ")"] in
  indent ← str_mul "  " (getattr comment "depth" (PyInt 0));
  let header := join " " header_parts in
  let body := getattr comment "body" (PyStr "") in
  Ok (indent +:+ header +:+ nl +:+ indent +:+ str body).

(** Lines 23-29: the limit is read only from a non-empty value, and a
    value [int] rejects leaves it at [None].  [cap] is the digit cap of
    the interpreter that runs the script. *)
Definition comment_limit (cap : nat) (environ : gmap string string)
  : option Z :=
  match environ !! "REDDIT_COMMENT_LIMIT" with
  | Some comment_limit_env =>
      if str_nonempty comment_limit_env then int cap comment_limit_env
      else None
  | None => None
  end.

(** Line 53: [comment_limit and len(comments) >= comment_limit]. *)
Definition limit_reached (limit : option Z) (comments : list string) : bool :=
  match limit with
  | Some n => negb (n =? 0) && (n <=? Z.of_nat (length comments))
  | None => false
  end.

(** Line 51: [getattr(comment, "body", None)] as a condition. *)
Definition has_body (comment : object) : bool :=
  truthy (getattr comment "body" PyNone).

(** Lines 50-54: the loop over [submission.comments.list()], with the
    list [comments] built so far. *)
Fixpoint comments_loop (limit : option Z) (nodes : list object)
    (comments : list string) : result (list string) :=
  match nodes with
  | [] => Ok comments
  | comment :: rest =>
      if has_body comment then
        text ← render_comment comment;
        let comments := comments ++ [text] in
        if limit_reached limit comments then Ok comments
        else comments_loop limit rest comments
      else comments_loop limit rest comments
  end.

(** Lines 56-65: the payload, its entries in the order of the literal. *)
Definition payload (sub : object) (submission_title submission_selftext : value)
    (comments : list string) : result dict :=
  permalink ← attr sub "permalink";
  score ← attr sub "score";
  subreddit ← attr sub "subreddit";
  author ← attr sub "author";
  num_comments ← attr sub "num_comments";
  Ok [ ("title", Scalar submission_title);
       ("selftext", Scalar submission_selftext);
       ("comments", ListOf (PyStr <$> comments));
       ("permalink", Scalar permalink);
       ("score", Scalar score);
       ("subreddit", Scalar (PyStr (str subreddit)));
       ("author", Scalar (if truthy author then PyStr (str author) else PyNone));
       ("comment_count", Scalar num_comments) ].

Definition present (v : option string) : bool :=
  match v with
  | Some s => str_nonempty s
  | None => false
  end.

Definition usage : string := "Usage: fetch_reddit.py <url>" +:+ nl.
Definition missing_credentials : string :=
  "Missing REDDIT_CLIENT_ID or REDDIT_CLIENT_SECRET environment variables."
  +:+ nl.
Definition missing_dependency : string :=
  "Missing dependency: praw. Install with `pip install praw`." +:+ nl.

(** Line 22: the sort mode, with its default. *)
Definition comment_sort (environ : gmap string string) : string :=
  default "confidence" (environ !! "REDDIT_COMMENT_SORT").

(** Lines 35-40: the client built from the two credentials and the user
    agent with its default (line 21). *)
Definition connect (praw : Praw.client) (environ : gmap string string)
  : Praw.reddit :=
  praw (default "" (environ !! "REDDIT_CLIENT_ID"))
       (default "" (environ !! "REDDIT_CLIENT_SECRET"))
       (default "twx-reddit/0.1" (environ !! "REDDIT_USER_AGENT")).

(** [main], lines 13-67, run by an interpreter whose digit cap is [cap]. *)
Definition main (cap : nat) (praw : Praw.client) (argv : list string)
    (environ : gmap string string) : io unit :=
  (if (length argv <? 2)%nat
   then stderr_write usage;; sys_exit 1
   else mret tt);;
  url ← lift (from_option Ok (Raise IndexError) (argv !! 1%nat));
  let client_id := environ !! "REDDIT_CLIENT_ID" in
  let client_secret := environ !! "REDDIT_CLIENT_SECRET" in
  let comment_sort := comment_sort environ in
  let comment_limit := comment_limit cap environ in
  (if negb (present client_id) || negb (present client_secret)
   then stderr_write missing_credentials;; sys_exit 1
   else mret tt);;
  let reddit := connect praw environ in
  submission ← lift (Praw.call (Praw.submission reddit url));
  sub ← lift (Praw.call (Praw.load submission comment_sort));
  title ← lift (attr sub "title");
  let submission_title := or_ title (PyStr "") in
  selftext ← lift (attr sub "selftext");
  let submission_selftext := or_ selftext (PyStr "") in
  nodes ← lift (Praw.call (Praw.replace_more submission comment_sort));
  comments ← lift (comments_loop comment_limit nodes []);
  payload ← lift (payload sub submission_title submission_selftext comments);
  text ← lift (dumps payload);
  print text.

(** The value [main] prints once both guards are passed: lines 35-67
    up to the argument of [print], as one computation. *)
Definition fetched (cap : nat) (praw : Praw.client) (url : string)
    (environ : gmap string string) : result string :=
  h ← Praw.call (Praw.submission (connect praw environ) url);
  sub ← Praw.call (Praw.load h (comment_sort environ));
  title ← attr sub "title";
  selftext ← attr sub "selftext";
  nodes ← Praw.call (Praw.replace_more h (comment_sort environ));
  comments ← comments_loop (comment_limit cap environ) nodes [];
  d ← payload sub (or_ title (PyStr "")) (or_ selftext (PyStr "")) comments;
  dumps d.

(** The module as a script: lines 6-10, then line 83.  [None] is the
    failed import. *)
Definition script (cap : nat) (praw : option Praw.client)
    (argv : list string) (environ : gmap string string) : io unit :=
  match praw with
  | None => stderr_write missing_dependency;; sys_exit 1
  | Some p => main cap p argv environ
  end.

End FetchReddit.

(** ** The data model of the specification

    The entities of the specification, read off the attribute
    dictionaries the client delivers. *)
Module DataModel.
Import Py.

(** A Comment: [author] is a redditor or [None] (deleted), [score] is an
    integer when available, [depth] a non-negative integer when exposed,
    [body] text when present. *)
Definition comment_node (c : object) : bool :=
  match c !! "author" with
  | Some PyNone | Some (PyModel _) => true
  | _ => false
  end
  && match c !! "score" with
     | None | Some PyNone | Some (PyInt _) => true
     | _ => false
     end
  && match c !! "depth" with
     | None => true
     | Some (PyInt d) => 0 <=? d
     | _ => false
     end
  && match c !! "body" with
     | None | Some (PyStr _) => true
     | _ => false
     end.

(** A Submission: [title] and [selftext] that are text (or [None], which
    lines 45-46 turn into the empty text), a text [permalink], integer
    [score] and [num_comments], a [subreddit], an [author] that is a
    redditor or [None]. *)
Definition submission_node (s : object) : bool :=
  match s !! "title" with
  | Some (PyStr _) | Some PyNone => true
  | _ => false
  end
  && match s !! "selftext" with
     | Some (PyStr _) | Some PyNone => true
     | _ => false
     end
  && match s !! "permalink" with
     | Some (PyStr _) => true
     | _ => false
     end
  && match s !! "score", s !! "num_comments" with
     | Some (PyInt _), Some (PyInt _) => true
     | _, _ => false
     end
  && match s !! "subreddit" with
     | Some (PyModel _) => true
     | _ => false
     end
  && match s !! "author" with
     | Some PyNone | Some (PyModel _) => true
     | _ => false
     end.

Definition author_of (c : object) : option string :=
  match c !! "author" with
  | Some (PyModel name) => Some name
  | _ => None
  end.

Definition score_of (c : object) : option Z :=
  match c !! "score" with
  | Some (PyInt z) => Some z
  | _ => None
  end.

Definition depth_of (c : object) : Z :=
  match c !! "depth" with
  | Some (PyInt d) => d
  | _ => 0
  end.

Definition body_of (c : object) : string :=
  match c !! "body" with
  | Some (PyStr s) => s
  | _ => ""
  end.


(** A body that is absent or empty. *)
Definition no_body (c : object) : Prop :=
  c !! "body" = None ∨ c !! "body" = Some PyNone ∨ c !! "body" = Some (PyStr "").

End DataModel.

(** ** The rendering rule in the words of the specification *)
Module Spec.
Import Py.

Fixpoint spaces (n : nat) : string :=
  match n with
  | O => ""
  | S k => String " " (spaces k)
  end.

Definition author_label (author : option string) : string :=
  match author with
  | Some name => "u/" +:+ name
  | None => "[deleted]"
  end.

Definition score_suffix (score : option Z) : string :=
  match score with
  | Some z => " (score: " +:+ dec z +:+ ")"
  | None => ""
  end.

Definition header (author : option string) (score : option Z) : string :=
  author_label author +:+ score_suffix score.

Definition text_block (author : option string) (score : option Z)
    (depth : nat) (body : string) : string :=
  spaces (2 * depth) +:+ header author score +:+ nl
  +:+ spaces (2 * depth) +:+ body.



End Spec.

(** ** Sample data

    The two comments and the submission of the end-to-end examples of
    the specification, a few irregular nodes, and clients that deliver
    them or fail. *)
Module Examples.
Import Py.

Definition alice : object :=
  list_to_map [("author", PyModel "alice"); ("score", PyInt 5);
               ("depth", PyInt 0); ("body", PyStr "first")].

Definition ghost : object :=
  list_to_map [("author", PyNone); ("depth", PyInt 1); ("body", PyStr "reply")].

(** A residual placeholder: no author and no body. *)
Definition placeholder : object :=
  list_to_map [("count", PyInt 3); ("depth", PyInt 1)].

Definition blank : object :=
  list_to_map [("author", PyModel "bob"); ("score", PyInt 2);
               ("depth", PyInt 0); ("body", PyStr "")].

Definition post : object :=
  list_to_map [("title", PyStr "Hi"); ("selftext", PyStr "");
               ("permalink", PyStr "/r/test/comments/abc/hi/");
               ("score", PyInt 7); ("subreddit", PyModel "test");
               ("author", PyNone); ("num_comments", PyInt 2)].

Definition thread : Praw.handle :=
  Praw.Handle (λ _, Praw.Got post) (λ _, Praw.Got [alice; ghost]).

Definition online : Praw.client :=
  λ _ _ _, Praw.Reddit (λ _, Praw.Got thread).

Definition bad_url : Praw.client :=
  λ _ _ _, Praw.Reddit (λ _, Praw.Failed "invalid URL").

Definition unauthorized : Praw.client :=
  λ _ _ _, Praw.Reddit (λ _,
    Praw.Got (Praw.Handle (λ _, Praw.Failed "401") (λ _, Praw.Got []))).

Definition credentials : gmap string string :=
  list_to_map [("REDDIT_CLIENT_ID", "id"); ("REDDIT_CLIENT_SECRET", "secret")].

Definition argv : list string := ["fetch_reddit.py"; "https://redd.it/abc"].

(** Nodes no client delivers: a body with no [author] attribute, and a
    [depth] that is not an integer. *)
Definition orphan : object :=
  list_to_map [("body", PyStr "lost"); ("depth", PyInt 0)].

Definition askew : object :=
  list_to_map [("author", PyModel "carol"); ("depth", PyStr "deep");
               ("body", PyStr "text")].

(** A string between double quotes. *)
Definition quoted (s : string) : string := dquote +:+ s +:+ dquote.

End Examples.

Import Py FetchReddit DataModel.

(** ** Strings *)
Section Strings.

Lemma str_app_nil_r (s : string) : s +:+ "" = s.
Proof.
  induction s as [|a s IH]; [reflexivity|].
  change (String a (s +:+ "") = String a s). by rewrite IH.
Qed.

Lemma str_app_assoc (s t u : string) : (s +:+ t) +:+ u = s +:+ t +:+ u.
Proof.
  induction s as [|a s IH]; [reflexivity|].
  change (String a ((s +:+ t) +:+ u) = String a (s +:+ t +:+ u)).
  by rewrite IH.
Qed.

Lemma contains_app (c : ascii) (s t : string) :
  contains c (s +:+ t) = contains c s || contains c t.
Proof.
  induction s as [|a s IH]; [reflexivity|].
  change (Ascii.eqb a c || contains c (s +:+ t)
          = Ascii.eqb a c || contains c s || contains c t).
  rewrite IH. by rewrite orb_assoc.
Qed.

Lemma contains_join (c : ascii) (sep : string) (parts : list string) :
  contains c sep = false →
  Forall (λ p, contains c p = false) parts →
  contains c (join sep parts) = false.
Proof.
  intros Hsep. induction 1 as [|p parts Hp Hps IH]; [reflexivity|].
  unfold join in *. destruct parts as [|q parts]; [exact Hp|].
  change (contains c (p +:+ sep +:+ String.concat sep (q :: parts)) = false).
  by rewrite !contains_app, Hp, Hsep, IH.
Qed.

Lemma repeat_two_spaces (n : nat) : repeat_str "  " n = Spec.spaces (2 * n).
Proof.
  induction n as [|n IH]; [reflexivity|].
  replace (2 * S n)%nat with (S (S (2 * n))) by lia.
  simpl repeat_str. rewrite IH. reflexivity.
Qed.

Lemma spaces_length (n : nat) : String.length (Spec.spaces n) = n.
Proof. induction n; simpl; congruence. Qed.

End Strings.

(** ** Exceptions of the result monad *)
Section Results.

Lemma bind_ok {A B} (m : result A) (f : A → result B) (b : B) :
  m ≫= f = Ok b → ∃ a, m = Ok a ∧ f a = Ok b.
Proof. destruct m as [a|e]; [eauto | discriminate]. Qed.

Lemma mapM_ok_length {A B} (f : A → result B) (l : list A) (k : list B) :
  mapM f l = Ok k → length k = length l.
Proof.
  revert k. induction l as [|x l IH]; intros k; cbn.
  - by intros [= <-].
  - intros (y & _ & (k' & Hk & [= <-])%bind_ok)%bind_ok. cbn. f_equal.
    by apply IH.
Qed.

Lemma plain_ok {A} (a : A) : plain (Ok a).
Proof. intros e [=]. Qed.

Lemma plain_bind {A B} (m : result A) (f : A → result B) :
  plain m → (∀ a, plain (f a)) → plain (m ≫= f).
Proof.
  intros Hm Hf e. destruct m as [a|e']; cbn;
    [apply Hf | intros [= ->]; by apply Hm].
Qed.

Lemma plain_attr (o : object) (name : string) : plain (attr o name).
Proof. unfold attr. intros e. by destruct (o !! name); intros [= <-]. Qed.

Lemma plain_call {A} (r : Praw.response A) : plain (Praw.call r).
Proof. intros e. by destruct r; intros [= <-]. Qed.

Lemma plain_str_mul (s : string) (v : value) : plain (str_mul s v).
Proof. intros e. by destruct v; intros [= <-]. Qed.

Lemma plain_encode_value (v : value) : plain (encode_value v).
Proof. intros e. by destruct v; intros [= <-]. Qed.

End Results.

Create HintDb plain.
#[global] Hint Resolve plain_ok plain_bind plain_attr plain_call
  plain_str_mul plain_encode_value : plain.

Lemma plain_encode_values (vs : list value) : plain (encode_values vs).
Proof. induction vs; cbn; eauto with plain. Qed.

Lemma plain_encode_item (i : item) : plain (encode_item i).
Proof. destruct i; cbn; eauto using plain_encode_values with plain. Qed.

Lemma plain_encode_pairs (d : dict) : plain (encode_pairs d).
Proof.
  induction d as [|[k i] d IH]; cbn;
    eauto using plain_encode_item with plain.
Qed.

Lemma plain_dumps (d : dict) : plain (dumps d).
Proof. unfold dumps. eauto using plain_encode_pairs with plain. Qed.

#[global] Hint Resolve plain_dumps : plain.

(** ** Rendering one comment *)
Section Rendering.

(** On a Comment of the data model the code computes the text block of
    the specification. *)
Lemma render_comment_text_block (c : object) :
  comment_node c = true →
  render_comment c
  = Ok (Spec.text_block (author_of c) (score_of c)
          (Z.to_nat (depth_of c)) (body_of c)).
Proof.
  unfold comment_node, render_comment, Spec.text_block, Spec.header, attr,
    getattr, author_of, score_of, depth_of, body_of.
  intros H. repeat (apply andb_prop in H; destruct H as [H ?]).
  destruct (c !! "author") as [[| | |name]|]; try discriminate;
  destruct (c !! "score") as [[|z| |]|]; try discriminate;
  destruct (c !! "depth") as [[|d| |]|]; try discriminate;
  destruct (c !! "body") as [[| |b|]|]; try discriminate;
  cbn -[String.append Nat.mul];
  rewrite ?repeat_two_spaces, ?str_app_nil_r; reflexivity.
Qed.

Lemma plain_render (c : object) : plain (render_comment c).
Proof. unfold render_comment. eauto with plain. Qed.

Lemma no_body_false (c : object) : no_body c → has_body c = false.
Proof. unfold has_body, getattr. by intros [-> | [-> | ->]]. Qed.

End Rendering.

#[global] Hint Resolve plain_render : plain.

(** ** The loop over the comment sequence *)
Section Loop.

Lemma loop_skip (limit : option Z) (c : object) (rest : list object)
    (acc : list string) :
  has_body c = false →
  comments_loop limit (c :: rest) acc = comments_loop limit rest acc.
Proof. intros H. cbn. by rewrite H. Qed.

(** When the limit test never fires, the loop renders every node that has
    a body, in order. *)
Lemma loop_unlimited (limit : option Z) (nodes : list object)
    (acc : list string) :
  (∀ comments, limit_reached limit comments = false) →
  comments_loop limit nodes acc
  = ts ← mapM render_comment (List.filter has_body nodes); Ok (acc ++ ts).
Proof.
  intros Hl. revert acc. induction nodes as [|c rest IH]; intros acc; cbn.
  - by rewrite app_nil_r.
  - destruct (has_body c); [|apply IH]. cbn.
    destruct (render_comment c) as [t|e]; [|reflexivity]. cbn.
    rewrite Hl, IH. destruct (mapM render_comment _); cbn; [|reflexivity].
    by rewrite <- app_assoc.
Qed.




Lemma plain_loop (limit : option Z) (nodes : list object) (acc : list string) :
  plain (comments_loop limit nodes acc).
Proof.
  revert acc. induction nodes as [|c rest IH]; intros acc; cbn;
    [apply plain_ok|].
  destruct (has_body c); [|apply IH].
  apply plain_bind; [apply plain_render|]. intros t.
  destruct (limit_reached _ _); auto with plain.
Qed.



Lemma plain_payload (sub : object) (t s : value) (comments : list string) :
  plain (payload sub t s comments).
Proof.
  unfold payload. eauto 10 with plain.
Qed.

End Loop.

#[global] Hint Resolve plain_loop plain_payload : plain.

(** ** The serialised text *)
Section Json.

Lemma escape_char_one_line (c : ascii) : contains "010" (escape_char c) = false.
Proof. destruct c as [[] [] [] [] [] [] [] []]; vm_compute; reflexivity. Qed.

Lemma escape_one_line (s : string) : contains "010" (escape s) = false.
Proof.
  induction s as [|c s IH]; [reflexivity|].
  cbn [escape]. by rewrite contains_app, escape_char_one_line, IH.
Qed.

Lemma basestring_one_line (s : string) :
  contains "010" (encode_basestring_ascii s) = false.
Proof.
  unfold encode_basestring_ascii. by rewrite !contains_app, escape_one_line.
Qed.

Lemma uint_one_line (d : Decimal.uint) :
  contains "010" (NilEmpty.string_of_uint d) = false.
Proof. induction d; cbn; auto. Qed.

Lemma dec_one_line (z : Z) : contains "010" (dec z) = false.
Proof.
  unfold dec, NilZero.string_of_int, NilZero.string_of_uint.
  destruct (Z.to_int z) as [d|d]; destruct d; cbn; auto using uint_one_line.
Qed.

Lemma encode_value_one_line (v : value) (t : string) :
  encode_value v = Ok t → contains "010" t = false.
Proof.
  destruct v; intros [= <-]; auto using dec_one_line, basestring_one_line.
Qed.

Lemma encode_values_one_line (vs : list value) (ts : list string) :
  encode_values vs = Ok ts → Forall (λ t, contains "010" t = false) ts.
Proof.
  revert ts. induction vs as [|v vs IH]; intros ts; cbn.
  - intros [= <-]. constructor.
  - intros (t & Ht & (ts' & Hts & [= <-])%bind_ok)%bind_ok.
    constructor; eauto using encode_value_one_line.
Qed.

Lemma encode_item_one_line (i : item) (t : string) :
  encode_item i = Ok t → contains "010" t = false.
Proof.
  destruct i as [v|vs]; cbn; [apply encode_value_one_line|].
  intros (ts & Hts & [= <-])%bind_ok.
  rewrite !contains_app, contains_join; eauto using encode_values_one_line.
Qed.

Lemma encode_pairs_one_line (d : dict) (ts : list string) :
  encode_pairs d = Ok ts → Forall (λ t, contains "010" t = false) ts.
Proof.
  revert ts. induction d as [|[k i] d IH]; intros ts; cbn.
  - intros [= <-]. constructor.
  - intros (t & Ht & (ts' & Hts & [= <-])%bind_ok)%bind_ok.
    constructor; [|by apply IH].
    by rewrite !contains_app, basestring_one_line, (encode_item_one_line i t).
Qed.

(** The text [json.dumps] produces holds no line break. *)
Lemma dumps_one_line (d : dict) (text : string) :
  dumps d = Ok text → contains "010" text = false.
Proof.
  unfold dumps. intros (ts & Hts & [= <-])%bind_ok.
  rewrite !contains_app, contains_join; eauto using encode_pairs_one_line.
Qed.

End Json.

(** ** Integer literals *)
Section IntLiteral.

Variable cap : nat.

Lemma contains_lstrip (c : ascii) (s : string) :
  contains c s = true → is_space c = true ∨ contains c (lstrip s) = true.
Proof.
  induction s as [|a s IH]; cbn; [discriminate|].
  destruct (is_space a) eqn:Ha; [|by right].
  destruct (Ascii.eqb_spec a c) as [->|_]; cbn; [by left | exact IH].
Qed.

Lemma contains_split_sign (c : ascii) (s : string) :
  contains c s = true →
  Ascii.eqb c "+" || Ascii.eqb c "-" = true ∨ contains c (split_sign s).2 = true.
Proof.
  destruct s as [|a s]; [discriminate|].
  unfold split_sign.
  destruct (Ascii.eqb_spec a "+") as [->|Hp];
    [|destruct (Ascii.eqb_spec a "-") as [->|Hm]].
  - cbn [contains snd]. intros [<-%Ascii.eqb_eq | H]%orb_true_iff; [by left | by right].
  - cbn [contains snd]. intros [<-%Ascii.eqb_eq | H]%orb_true_iff; [by left | by right].
  - intros H. right.
    destruct a as [[] [] [] [] [] [] [] []]; try exact H; congruence.
Qed.

Lemma contains_scan_digits (c : ascii) (s : string) (p : bool) (n : nat)
    (acc v : Z) (rest : string) :
  scan_digits cap s p n acc = Some (v, rest) →
  contains c s = true →
  is_digit c || is_underscore c = true ∨ contains c rest = true.
Proof.
  revert p n acc. induction s as [|a s IH]; intros p n acc; cbn; [discriminate|].
  destruct (is_digit a) eqn:Hd.
  - intros H. destruct (Ascii.eqb_spec a c) as [<-|_]; cbn;
      [left; by rewrite Hd | eauto].
  - destruct (is_underscore a) eqn:Hu.
    + destruct p; [discriminate|]. intros H.
      destruct (Ascii.eqb_spec a c) as [<-|_]; cbn;
        [left; by rewrite Hu, orb_true_r | eauto].
    + unfold scan_end.
      destruct (p || (n =? 0)%nat || over_cap cap n); [discriminate|].
      intros [= _ <-]. by right.
Qed.

Lemma contains_blank (c : ascii) (s : string) :
  str_nonempty (lstrip s) = false → contains c s = true → is_space c = true.
Proof.
  intros H Hc. destruct (contains_lstrip c s Hc) as [|Hc']; [done|].
  destruct (lstrip s); [discriminate Hc' | discriminate H].
Qed.

(** A string [int] accepts is made of white space, digits, underscores
    and signs only. *)
Lemma int_alphabet (s : string) (z : Z) (c : ascii) :
  int cap s = Some z → contains c s = true → int_char c = true.
Proof.
  unfold int, int_char. intros H Hc.
  destruct (contains_lstrip c s Hc) as [->|Hc1]; [reflexivity|].
  destruct (contains_split_sign c _ Hc1) as [Hs|Hc2].
  { apply orb_true_iff in Hs as [-> | ->]; by rewrite ?orb_true_r. }
  destruct (split_sign (lstrip s)) as [sign body]. cbn in Hc2.
  destruct (leading_underscore body); [discriminate|].
  destruct (scan_digits cap body false 0 0) as [[n rest]|] eqn:Hscan; [|discriminate].
  destruct (str_nonempty (lstrip rest)) eqn:Hrest; [discriminate|].
  destruct (contains_scan_digits c _ _ _ _ _ _ Hscan Hc2) as [Hd|Hr].
  - apply orb_true_iff in Hd as [-> | ->]; by rewrite ?orb_true_r.
  - by rewrite (contains_blank c rest Hrest Hr).
Qed.

Lemma int_rejects (s : string) (c : ascii) :
  contains c s = true → int_char c = false → int cap s = None.
Proof.
  intros Hc Hn. destruct (int cap s) as [z|] eqn:E; [|reflexivity].
  rewrite (int_alphabet s z c E Hc) in Hn. discriminate.
Qed.

Lemma int_nonempty (s : string) (z : Z) : int cap s = Some z → str_nonempty s = true.
Proof. destruct s; [discriminate | reflexivity]. Qed.

End IntLiteral.

(** ** The whole run *)
Section Program.

Variable cap : nat.

Lemma plain_fetched praw url environ : plain (fetched cap praw url environ).
Proof.
  unfold fetched. eauto 20 with plain.
Qed.

(** The outcome of [main], by cases on its guards. *)
Lemma run_main praw argv environ :
  run (main cap praw argv environ)
  = match argv !! 1%nat with
    | None => Outcome 1 "" usage
    | Some url =>
        if present (environ !! "REDDIT_CLIENT_ID")
           && present (environ !! "REDDIT_CLIENT_SECRET")
        then match fetched cap praw url environ with
             | Ok text => Outcome 0 (text +:+ nl) ""
             | Raise _ => Outcome 1 "" ""
             end
        else Outcome 1 "" missing_credentials
    end.
Proof.
  unfold run, main, fetched.
  unfold mbind, io_bind, result_bind, lift, sys_exit, stderr_write, print,
    stdout_write, mret, io_ret.
  destruct (length argv <? 2)%nat eqn:Hlen.
  - apply Nat.ltb_lt in Hlen. rewrite (lookup_ge_None_2 argv 1) by lia. reflexivity.
  - apply Nat.ltb_ge in Hlen.
    destruct (lookup_lt_is_Some_2 argv 1%nat ltac:(lia)) as [url ->]. cbn.
    destruct (present (environ !! "REDDIT_CLIENT_ID")),
      (present (environ !! "REDDIT_CLIENT_SECRET")); cbn; try reflexivity.
    destruct (Praw.call (Praw.submission _ url)) as [h|e] eqn:E; cbn;
      [|by apply plain_call in E; destruct e].
    destruct (Praw.call (Praw.load _ _)) as [sub|e] eqn:E1; cbn;
      [|by apply plain_call in E1; destruct e].
    destruct (attr sub "title") as [title|e] eqn:E2; cbn;
      [|by apply plain_attr in E2; destruct e].
    destruct (attr sub "selftext") as [selftext|e] eqn:E3; cbn;
      [|by apply plain_attr in E3; destruct e].
    destruct (Praw.call (Praw.replace_more _ _)) as [nodes|e] eqn:E4; cbn;
      [|by apply plain_call in E4; destruct e].
    destruct (comments_loop _ _ _) as [comments|e] eqn:E5; cbn;
      [|by apply plain_loop in E5; destruct e].
    destruct (payload _ _ _ _) as [d|e] eqn:E6; cbn;
      [|by apply plain_payload in E6; destruct e].
    destruct (dumps d) as [text|e] eqn:E7; cbn;
      [reflexivity|by apply plain_dumps in E7; destruct e].
Qed.

Lemma run_no_praw argv environ :
  run (script cap None argv environ) = Outcome 1 "" missing_dependency.
Proof. reflexivity. Qed.

(** Every run ends with status 1 and nothing printed, or with status 0
    and the one printed line. *)
Lemma run_script_cases praw argv environ :
  (status (run (script cap praw argv environ)) = 1
   ∧ output (run (script cap praw argv environ)) = "")
  ∨ ∃ p url text,
      praw = Some p ∧ argv !! 1%nat = Some url
      ∧ fetched cap p url environ = Ok text
      ∧ run (script cap praw argv environ) = Outcome 0 (text +:+ nl) "".
Proof.
  destruct praw as [p|]; [|left; by rewrite run_no_praw].
  cbn [script]. rewrite run_main.
  destruct (argv !! 1%nat) as [url|]; [|by left].
  destruct (_ && _); [|by left].
  destruct (fetched cap p url environ) as [text|e] eqn:E; [|by left].
  right. by exists p, url, text.
Qed.

(** [main] reads five variables of the environment and nothing else, and
    the limit only through the loop. *)
Lemma fetched_env praw url (e1 e2 : gmap string string) :
  e1 !! "REDDIT_CLIENT_ID" = e2 !! "REDDIT_CLIENT_ID" →
  e1 !! "REDDIT_CLIENT_SECRET" = e2 !! "REDDIT_CLIENT_SECRET" →
  e1 !! "REDDIT_USER_AGENT" = e2 !! "REDDIT_USER_AGENT" →
  e1 !! "REDDIT_COMMENT_SORT" = e2 !! "REDDIT_COMMENT_SORT" →
  (∀ nodes, comments_loop (comment_limit cap e1) nodes []
            = comments_loop (comment_limit cap e2) nodes []) →
  fetched cap praw url e1 = fetched cap praw url e2.
Proof.
  intros H1 H2 H3 H4 H5. unfold fetched, connect, comment_sort.
  rewrite H1, H2, H3, H4.
  destruct (Praw.call (Praw.submission _ url)) as [h|]; cbn; [|reflexivity].
  destruct (Praw.call (Praw.load _ _)) as [sub|]; cbn; [|reflexivity].
  destruct (attr sub "title") as [title|]; cbn; [|reflexivity].
  destruct (attr sub "selftext") as [selftext|]; cbn; [|reflexivity].
  destruct (Praw.call (Praw.replace_more _ _)) as [nodes|]; cbn; [|reflexivity].
  by rewrite H5.
Qed.

Lemma run_script_env praw argv (e1 e2 : gmap string string) :
  e1 !! "REDDIT_CLIENT_ID" = e2 !! "REDDIT_CLIENT_ID" →
  e1 !! "REDDIT_CLIENT_SECRET" = e2 !! "REDDIT_CLIENT_SECRET" →
  e1 !! "REDDIT_USER_AGENT" = e2 !! "REDDIT_USER_AGENT" →
  e1 !! "REDDIT_COMMENT_SORT" = e2 !! "REDDIT_COMMENT_SORT" →
  (∀ nodes, comments_loop (comment_limit cap e1) nodes []
            = comments_loop (comment_limit cap e2) nodes []) →
  run (script cap praw argv e1) = run (script cap praw argv e2).
Proof.
  intros H1 H2 H3 H4 H5. destruct praw as [p|]; [|reflexivity].
  cbn [script]. rewrite !run_main.
  destruct (argv !! 1%nat) as [url|]; [|reflexivity].
  rewrite (fetched_env p url e1 e2) by assumption. by rewrite H1, H2.
Qed.

Lemma limit_insert (environ : gmap string string) (s : string) :
  comment_limit cap (<["REDDIT_COMMENT_LIMIT" := s]> environ)
  = if str_nonempty s then int cap s else None.
Proof. unfold comment_limit. by rewrite lookup_insert_eq. Qed.

Lemma limit_delete (environ : gmap string string) :
  comment_limit cap (delete "REDDIT_COMMENT_LIMIT" environ) = None.
Proof. unfold comment_limit. by rewrite lookup_delete_eq. Qed.

(** Setting the limit variable against removing it: the runs agree as
    soon as the loops do. *)
Lemma run_limit_insert_delete praw argv (environ : gmap string string) s :
  (∀ nodes,
     comments_loop (if str_nonempty s then int cap s else None) nodes []
     = comments_loop None nodes []) →
  run (script cap praw argv (<["REDDIT_COMMENT_LIMIT" := s]> environ))
  = run (script cap praw argv (delete "REDDIT_COMMENT_LIMIT" environ)).
Proof.
  intros H. apply run_script_env;
    rewrite ?limit_insert, ?limit_delete, ?lookup_insert_ne, ?lookup_delete_ne by done;
    auto.
Qed.

End Program.

(** ** The printed payload *)
Section Payload.

Variable cap : nat.

(** [v or ""] is text as soon as [v] is text or [None]. *)
Lemma or_text (v : value) :
  match v with PyStr _ | PyNone => true | _ => false end = true →
  ∃ t, or_ v (PyStr "") = PyStr t.
Proof. destruct v as [| |[|a s]|]; try discriminate; intros _; eauto. Qed.

Lemma fetched_ok_dumps praw url environ text :
  fetched cap praw url environ = Ok text → ∃ d, dumps d = Ok text.
Proof.
  unfold fetched.
  intros (? & _ & (? & _ & (? & _ & (? & _ & (? & _ & (? & _ & (d & _ & H)
    %bind_ok)%bind_ok)%bind_ok)%bind_ok)%bind_ok)%bind_ok)%bind_ok.
  eauto.
Qed.

End Payload.


(** ** Worked examples *)
Section Worked.

Variable cap : nat.

#[local] Abbreviation q := Examples.quoted.

(** The two end-to-end examples of the specification. *)
Example end_to_end_unlimited :
  comments_loop (comment_limit cap Examples.credentials)
    [Examples.alice; Examples.ghost] []
  = Ok ["u/alice (score: 5)" +:+ nl +:+ "first";
        "  [deleted]" +:+ nl +:+ "  reply"].
Proof. reflexivity. Qed.

Example end_to_end_limit_one :
  comments_loop
    (comment_limit cap (<["REDDIT_COMMENT_LIMIT" := "1"]> Examples.credentials))
    [Examples.alice; Examples.ghost] []
  = Ok ["u/alice (score: 5)" +:+ nl +:+ "first"].
Proof. reflexivity. Qed.

Example end_to_end_output :
  run (script cap (Some Examples.online) Examples.argv Examples.credentials)
  = Outcome 0
      ("{" +:+ q "title" +:+ ": " +:+ q "Hi" +:+ ", "
       +:+ q "selftext" +:+ ": " +:+ q "" +:+ ", "
       +:+ q "comments" +:+ ": [" +:+ q "u/alice (score: 5)\nfirst" +:+ ", "
       +:+ q "  [deleted]\n  reply" +:+ "], "
       +:+ q "permalink" +:+ ": " +:+ q "/r/test/comments/abc/hi/" +:+ ", "
       +:+ q "score" +:+ ": 7, "
       +:+ q "subreddit" +:+ ": " +:+ q "test" +:+ ", "
       +:+ q "author" +:+ ": null, "
       +:+ q "comment_count" +:+ ": 2}" +:+ nl)
      "".
Proof. reflexivity. Qed.

Example bad_url_run :
  run (script cap (Some Examples.bad_url) Examples.argv Examples.credentials)
  = Outcome 1 "" "".
Proof. reflexivity. Qed.

Example placeholder_skipped :
  comments_loop None [Examples.placeholder; Examples.blank; Examples.ghost] []
  = Ok ["  [deleted]" +:+ nl +:+ "  reply"].
Proof. reflexivity. Qed.

(** Outside the data model: a node with no [author] attribute cannot
    be rendered; the loop never tries, since such a node has no body. *)
Example placeholder_not_rendered :
  render_comment Examples.placeholder = Raise (AttributeError "author")
  ∧ has_body Examples.placeholder = false.
Proof. split; reflexivity. Qed.

Example irregular_nodes_raise :
  render_comment Examples.orphan = Raise (AttributeError "author")
  ∧ render_comment Examples.askew = Raise TypeError.
Proof. split; reflexivity. Qed.

(** The digit cap: 4301 digits are too many for the default interpreter,
    leading zeros included, and a negative literal that long is no
    limit at all; 4300 digits pass, and so does anything without a
    cap. *)
Example int_cap_examples :
  int 4300 (String "-" (repeat_str "1" 4301)) = None
  ∧ int 4300 (repeat_str "0" 4300 +:+ "1") = None
  ∧ int 0 (repeat_str "0" 4300 +:+ "1") = Some 1
  ∧ int 4300 (repeat_str "0" 4299 +:+ "1") = Some 1
  ∧ comment_limit 4300
      (<["REDDIT_COMMENT_LIMIT" := String "-" (repeat_str "1" 4301)]>
         Examples.credentials) = None.
Proof. repeat split; vm_compute; reflexivity. Qed.

(** [int] on a few literals. *)
Example int_examples :
  int cap " 12 " = Some 12 ∧ int cap "+4" = Some 4 ∧ int cap "-15" = Some (-15)
  ∧ int cap "007" = Some 7 ∧ int cap "1_000" = Some 1000
  ∧ int cap (String "133" "1") = Some 1
  ∧ int cap "" = None ∧ int cap " " = None ∧ int cap "- 4" = None ∧ int cap "1__0" = None
  ∧ int cap "_1" = None ∧ int cap "1_" = None ∧ int cap "1 2" = None ∧ int cap "1.5" = None
  ∧ int cap "0x10" = None ∧ int cap (String "028" "1") = None.
Proof. repeat split; reflexivity. Qed.

(** The escapes of [json.dumps] on one string with a character of each
    kind (codes 120 10 9 34 92 127 128 255 1 8 12 13 47 233). *)
Example escape_example :
  escape (string_of_list_ascii
            (ascii_of_nat <$> [120; 10; 9; 34; 92; 127; 128; 255; 1; 8; 12; 13;
                               47; 233]%nat))
  = "x\n\t" +:+ backslash +:+ dquote +:+ backslash +:+ backslash
    +:+ "\u007f\u0080\u00ff\u0001\b\f\r/\u00e9".
Proof. reflexivity. Qed.

End Worked.

(** ** The properties of the specification *)



(** C2. On the success path the process prints exactly one line, the
    serialisation of one object with the eight keys [title], [selftext],
    [comments], [permalink], [score], [subreddit], [author] and
    [comment_count] in their stated types, where [author] is null exactly
    when the submission has no author. *)
Theorem success_prints_one_json_line (cap : nat) (praw : Praw.client)
    (argv : list string) (environ : gmap string string)
    (url : string) (h : Praw.handle) (sub : object) :
  argv !! 1%nat = Some url →
  Praw.submission (connect praw environ) url = Praw.Got h →
  Praw.load h (comment_sort environ) = Praw.Got sub →
  submission_node sub = true →
  status (run (script cap (Some praw) argv environ)) = 0 →
  ∃ (title selftext : string) (comments : list string) (permalink : string)
    (score : Z) (subreddit : string) (author : value) (comment_count : Z)
    (text : string),
    dumps [ ("title", Scalar (PyStr title));
            ("selftext", Scalar (PyStr selftext));
            ("comments", ListOf (PyStr <$> comments));
            ("permalink", Scalar (PyStr permalink));
            ("score", Scalar (PyInt score));
            ("subreddit", Scalar (PyStr subreddit));
            ("author", Scalar author);
            ("comment_count", Scalar (PyInt comment_count)) ] = Ok text
    ∧ run (script cap (Some praw) argv environ) = Outcome 0 (text +:+ nl) ""
    ∧ contains "010" text = false
    ∧ (sub !! "author" = Some PyNone ∧ author = PyNone
       ∨ ∃ name, sub !! "author" = Some (PyModel name) ∧ author = PyStr name).
Proof.
  intros Hurl Hh Hsub Hnode. cbn [script]. rewrite run_main, Hurl.
  destruct (_ && _); [|discriminate].
  destruct (fetched cap praw url environ) as [text|e] eqn:E; [|discriminate].
  intros _. revert E. unfold fetched. rewrite Hh. cbn -[dumps]. rewrite Hsub. cbn -[dumps].
  unfold submission_node in Hnode.
  repeat (apply andb_prop in Hnode; destruct Hnode as [Hnode ?]).
  unfold payload, attr.
  destruct (sub !! "title") as [vt|]; [|discriminate].
  destruct (or_text vt) as [title Ht]; [done|].
  destruct (sub !! "selftext") as [vs|]; [|discriminate].
  destruct (or_text vs) as [selftext Hs]; [done|].
  destruct (sub !! "permalink") as [[| |permalink|]|]; try discriminate.
  destruct (sub !! "score") as [[|score| |]|]; try discriminate.
  destruct (sub !! "num_comments") as [[|count| |]|]; try discriminate.
  destruct (sub !! "subreddit") as [[| | |subreddit]|]; try discriminate.
  destruct (sub !! "author") as [[| | |name]|] eqn:Ha; try discriminate;
    cbn -[dumps or_]; rewrite Ht, Hs;
    intros (nodes & _ & (comments & _ & Hd)%bind_ok)%bind_ok.
  - exists title, selftext, comments, permalink, score, subreddit, PyNone,
      count, text.
    repeat split; [exact Hd | by apply (dumps_one_line _ _ Hd) | by left].
  - exists title, selftext, comments, permalink, score, subreddit,
      (PyStr name), count, text.
    repeat split; [exact Hd | by apply (dumps_one_line _ _ Hd) | right; eauto].
Qed.

Lemma success_prints_one_json_line_witness :
  ∃ (title selftext : string) (comments : list string) (permalink : string)
    (score : Z) (subreddit : string) (author : value) (comment_count : Z)
    (text : string),
    dumps [ ("title", Scalar (PyStr title));
            ("selftext", Scalar (PyStr selftext));
            ("comments", ListOf (PyStr <$> comments));
            ("permalink", Scalar (PyStr permalink));
            ("score", Scalar (PyInt score));
            ("subreddit", Scalar (PyStr subreddit));
            ("author", Scalar author);
            ("comment_count", Scalar (PyInt comment_count)) ] = Ok text
    ∧ run (script 4300 (Some Examples.online) Examples.argv Examples.credentials)
      = Outcome 0 (text +:+ nl) ""
    ∧ contains "010" text = false
    ∧ (Examples.post !! "author" = Some PyNone ∧ author = PyNone
       ∨ ∃ name, Examples.post !! "author" = Some (PyModel name)
                 ∧ author = PyStr name).
Proof.
  apply (success_prints_one_json_line 4300 Examples.online Examples.argv
           Examples.credentials "https://redd.it/abc" Examples.thread
           Examples.post); reflexivity.
Defined.

(** C3. On a Comment of the data model rendering returns, and the header
    that follows the indentation is ["[deleted]"] for a deleted author
    and ["u/"] with the name otherwise, followed by [" (score: N)"] only
    when a score is available. *)
Theorem render_comment_header (c : object) :
  comment_node c = true →
  ∃ indent : string,
    indent = Spec.spaces (String.length indent)
    ∧ render_comment c =
        Ok (indent
            +:+ match author_of c, score_of c with
                | None, None => "[deleted]"
                | None, Some z => "[deleted] (score: " +:+ dec z +:+ ")"
                | Some name, None => "u/" +:+ name
                | Some name, Some z =>
                    "u/" +:+ name +:+ " (score: " +:+ dec z +:+ ")"
                end
            +:+ nl +:+ indent +:+ body_of c).
Proof.
  intros Hc. exists (Spec.spaces (2 * Z.to_nat (depth_of c))). split.
  - by rewrite spaces_length.
  - rewrite (render_comment_text_block c Hc).
    unfold Spec.text_block, Spec.header.
    destruct (author_of c), (score_of c); cbn -[String.append Nat.mul];
      rewrite ?str_app_nil_r, ?str_app_assoc; reflexivity.
Qed.

Lemma render_comment_header_witness :
  ∃ indent : string,
    indent = Spec.spaces (String.length indent)
    ∧ render_comment Examples.ghost
      = Ok (indent +:+ "[deleted]" +:+ nl +:+ indent +:+ "reply").
Proof. apply (render_comment_header Examples.ghost). reflexivity. Defined.

(** C4. A comment at depth [d] renders as [2*d] spaces, the header, a
    line break, [2*d] spaces again and the body as it is; a node that
    exposes no depth renders as one at depth 0. *)
Theorem render_comment_indent (c : object) (d : nat) :
  comment_node c = true →
  c !! "depth" = Some (PyInt (Z.of_nat d)) ∨ (c !! "depth" = None ∧ d = 0%nat) →
  render_comment c
  = Ok (Spec.spaces (2 * d) +:+ Spec.header (author_of c) (score_of c)
        +:+ nl +:+ Spec.spaces (2 * d) +:+ body_of c).
Proof.
  intros Hc Hd. rewrite (render_comment_text_block c Hc).
  unfold Spec.text_block, depth_of.
  destruct Hd as [-> | [-> ->]]; [by rewrite Nat2Z.id | reflexivity].
Qed.

Lemma render_comment_indent_witness :
  render_comment Examples.ghost
  = Ok ("  " +:+ "[deleted]" +:+ nl +:+ "  " +:+ "reply").
Proof.
  apply (render_comment_indent Examples.ghost 1); [reflexivity | by left].
Defined.

(** C5. A comment whose body is absent or empty leaves no trace in the
    list the loop builds, whatever the limit: dropping it from the
    sequence changes nothing. *)
Theorem bodyless_comment_contributes_nothing (limit : option Z)
    (before after : list object) (c : object) (acc : list string) :
  no_body c →
  comments_loop limit (before ++ c :: after) acc
  = comments_loop limit (before ++ after) acc.
Proof.
  intros Hc%no_body_false. revert acc.
  induction before as [|x before IH]; intros acc; [by apply loop_skip|].
  cbn. destruct (has_body x); [|apply IH].
  destruct (render_comment x) as [t|e]; cbn; [|reflexivity].
  destruct (limit_reached _ _); [reflexivity | apply IH].
Qed.

Lemma bodyless_comment_contributes_nothing_witness :
  comments_loop (Some 2) ([Examples.alice] ++ Examples.blank :: [Examples.ghost]) []
  = comments_loop (Some 2) ([Examples.alice] ++ [Examples.ghost]) [].
Proof.
  apply (bodyless_comment_contributes_nothing (Some 2) [Examples.alice]
           [Examples.ghost] Examples.blank []).
  right; right; reflexivity.
Defined.

(** C6. A value of the limit variable that [int] rejects leaves the
    limit unset, and the whole run is the run without the variable. *)
Theorem non_numeric_limit_is_ignored (cap : nat) (praw : option Praw.client)
    (argv : list string) (environ : gmap string string) (s : string) :
  int cap s = None →
  comment_limit cap (<["REDDIT_COMMENT_LIMIT" := s]> environ) = None
  ∧ run (script cap praw argv (<["REDDIT_COMMENT_LIMIT" := s]> environ))
    = run (script cap praw argv (delete "REDDIT_COMMENT_LIMIT" environ)).
Proof.
  intros Hs. split.
  - rewrite limit_insert, Hs. by destruct (str_nonempty s).
  - apply run_limit_insert_delete. intros nodes.
    rewrite Hs. by destruct (str_nonempty s).
Qed.

Lemma non_numeric_limit_is_ignored_witness :
  comment_limit 4300 (<["REDDIT_COMMENT_LIMIT" := "ten"]> Examples.credentials) = None
  ∧ run (script 4300 (Some Examples.online) Examples.argv
           (<["REDDIT_COMMENT_LIMIT" := "ten"]> Examples.credentials))
    = run (script 4300 (Some Examples.online) Examples.argv
             (delete "REDDIT_COMMENT_LIMIT" Examples.credentials)).
Proof.
  apply (non_numeric_limit_is_ignored 4300 (Some Examples.online) Examples.argv
           Examples.credentials "ten").
  reflexivity.
Defined.

(** The comments the loop keeps are the comments with a non-empty body. *)
Section Transcript.





End Transcript.



(** C8. Without the URL argument, or without either credential, the
    process ends with status 1 and has printed nothing. *)
Theorem missing_input_exits (cap : nat) (praw : option Praw.client)
    (argv : list string) (environ : gmap string string) :
  (length argv < 2)%nat
  ∨ environ !! "REDDIT_CLIENT_ID" = None
  ∨ environ !! "REDDIT_CLIENT_SECRET" = None →
  status (run (script cap praw argv environ)) = 1
  ∧ output (run (script cap praw argv environ)) = "".
Proof.
  intros H. destruct praw as [p|]; [|by rewrite run_no_praw].
  cbn [script]. rewrite run_main.
  destruct H as [H | H].
  - by rewrite (lookup_ge_None_2 argv 1) by lia.
  - destruct (argv !! 1%nat); [|done].
    destruct H as [-> | ->]; cbn; by rewrite ?andb_false_r.
Qed.

Lemma missing_input_exits_witness :
  status (run (script 4300 (Some Examples.online) ["fetch_reddit.py"]
                 Examples.credentials)) = 1
  ∧ output (run (script 4300 (Some Examples.online) ["fetch_reddit.py"]
                   Examples.credentials)) = "".
Proof.
  apply (missing_input_exits 4300 (Some Examples.online) ["fetch_reddit.py"]
           Examples.credentials).
  left. cbn. lia.
Defined.

(** C9. A failure of the external source (resolving the URL, loading the
    submission, expanding the comments) ends the process with status 1
    and nothing printed; and whatever happens, the process has printed
    either nothing or the whole serialised payload. *)
Theorem source_failure_is_terminal (cap : nat) (praw : Praw.client)
    (argv : list string) (environ : gmap string string) :
  (∀ url what,
     argv !! 1%nat = Some url →
     Praw.submission (connect praw environ) url = Praw.Failed what
     ∨ (∃ h, Praw.submission (connect praw environ) url = Praw.Got h
             ∧ (Praw.load h (comment_sort environ) = Praw.Failed what
                ∨ Praw.replace_more h (comment_sort environ) = Praw.Failed what)) →
     status (run (script cap (Some praw) argv environ)) = 1
     ∧ output (run (script cap (Some praw) argv environ)) = "")
  ∧ (status (run (script cap (Some praw) argv environ)) = 1
     ∧ output (run (script cap (Some praw) argv environ)) = ""
     ∨ ∃ d text,
         dumps d = Ok text
         ∧ run (script cap (Some praw) argv environ) = Outcome 0 (text +:+ nl) "").
Proof.
  split.
  - intros url what Hurl Hfail. cbn [script]. rewrite run_main, Hurl.
    destruct (_ && _); [|done].
    assert (∃ e, fetched cap praw url environ = Raise e) as [e ->]; [|done].
    unfold fetched.
    destruct Hfail as [-> | (h & -> & [Hl | Hr])]; cbn; [eauto | |].
    + rewrite Hl. cbn. eauto.
    + rewrite Hr. destruct (Praw.call (Praw.load _ _)) as [sub|]; cbn; [|eauto].
      destruct (attr sub "title"); cbn; [|eauto].
      destruct (attr sub "selftext"); cbn; eauto.
  - destruct (run_script_cases cap (Some praw) argv environ)
      as [H | (p & url & text & _ & _ & Hf & Hrun)]; [by left|].
    right. apply fetched_ok_dumps in Hf as [d Hd]. eauto.
Qed.

Lemma source_failure_is_terminal_witness :
  status (run (script 4300 (Some Examples.unauthorized) Examples.argv
                 Examples.credentials)) = 1
  ∧ output (run (script 4300 (Some Examples.unauthorized) Examples.argv
                   Examples.credentials)) = "".
Proof.
  apply (proj1 (source_failure_is_terminal 4300 Examples.unauthorized Examples.argv
                  Examples.credentials) "https://redd.it/abc" "401");
    [reflexivity|].
  right. eexists. split; [reflexivity | by left].
Defined.




(** * Further properties of the script *)

(** ** The shape of the loop under a positive limit *)
Section LoopShape.

Lemma bind_ret_nil {A} (m : result (list A)) :
  (ts ← m; Ok ([] ++ ts)) = m.
Proof. by destruct m. Qed.

(** Under a positive limit the loop renders the first [n] nodes that have
    a body, counting the entries already present. *)
Lemma loop_take (n : Z) (nodes : list object) (acc : list string) :
  Z.of_nat (length acc) < n →
  comments_loop (Some n) nodes acc
  = ts ← mapM render_comment
          (take (Z.to_nat n - length acc) (List.filter has_body nodes));
    Ok (acc ++ ts).
Proof.
  revert acc. induction nodes as [|c rest IH]; intros acc Hacc; cbn.
  - rewrite take_nil. cbn. by rewrite app_nil_r.
  - destruct (has_body c); [|by apply IH].
    destruct (Z.to_nat n - length acc)%nat as [|k] eqn:Hk; [lia|].
    cbn. destruct (render_comment c) as [t|e]; cbn; [|reflexivity].
    rewrite length_app. cbn [length].
    destruct (n <=? Z.of_nat (length acc + 1)) eqn:Hn.
    + apply Z.leb_le in Hn. replace (negb (n =? 0)) with true
        by (symmetry; apply negb_true_iff, Z.eqb_neq; lia).
      cbn. assert (k = 0%nat) as -> by lia. by rewrite take_0.
    + apply Z.leb_gt in Hn. rewrite andb_false_r.
      rewrite IH by (rewrite length_app; cbn; lia).
      rewrite length_app. cbn [length].
      replace (Z.to_nat n - (length acc + 1))%nat with k by lia.
      destruct (mapM render_comment _); cbn; [|reflexivity].
      by rewrite <- app_assoc.
Qed.

End LoopShape.

(** ** Printable output *)
Section Printable.

Lemma all_chars_app (p : ascii → bool) (s t : string) :
  all_chars p (s +:+ t) = all_chars p s && all_chars p t.
Proof.
  induction s as [|a s IH]; [reflexivity|].
  change (p a && all_chars p (s +:+ t) = p a && all_chars p s && all_chars p t).
  rewrite IH. by rewrite andb_assoc.
Qed.

Lemma all_chars_join (p : ascii → bool) (sep : string) (parts : list string) :
  all_chars p sep = true →
  Forall (λ t, all_chars p t = true) parts →
  all_chars p (join sep parts) = true.
Proof.
  intros Hsep. induction 1 as [|t parts Ht Hts IH]; [reflexivity|].
  unfold join in *. destruct parts as [|u parts]; [exact Ht|].
  change (all_chars p (t +:+ sep +:+ String.concat sep (u :: parts)) = true).
  by rewrite !all_chars_app, Ht, Hsep, IH.
Qed.

Lemma escape_char_printable (c : ascii) :
  all_chars printable (escape_char c) = true.
Proof. destruct c as [[] [] [] [] [] [] [] []]; vm_compute; reflexivity. Qed.

Lemma escape_printable (s : string) : all_chars printable (escape s) = true.
Proof.
  induction s as [|c s IH]; [reflexivity|].
  cbn [escape]. by rewrite all_chars_app, escape_char_printable, IH.
Qed.

Lemma basestring_printable (s : string) :
  all_chars printable (encode_basestring_ascii s) = true.
Proof.
  unfold encode_basestring_ascii. by rewrite !all_chars_app, escape_printable.
Qed.

Lemma uint_printable (d : Decimal.uint) :
  all_chars printable (NilEmpty.string_of_uint d) = true.
Proof. induction d; cbn; auto. Qed.

Lemma dec_printable (z : Z) : all_chars printable (dec z) = true.
Proof.
  unfold dec, NilZero.string_of_int, NilZero.string_of_uint.
  destruct (Z.to_int z) as [d|d]; destruct d; cbn;
    rewrite ?uint_printable; reflexivity.
Qed.

Lemma encode_value_printable (v : value) (t : string) :
  encode_value v = Ok t → all_chars printable t = true.
Proof.
  destruct v; intros [= <-]; auto using dec_printable, basestring_printable.
Qed.

Lemma encode_values_printable (vs : list value) (ts : list string) :
  encode_values vs = Ok ts → Forall (λ t, all_chars printable t = true) ts.
Proof.
  revert ts. induction vs as [|v vs IH]; intros ts; cbn.
  - intros [= <-]. constructor.
  - intros (t & Ht & (ts' & Hts & [= <-])%bind_ok)%bind_ok.
    constructor; eauto using encode_value_printable.
Qed.

Lemma encode_item_printable (i : item) (t : string) :
  encode_item i = Ok t → all_chars printable t = true.
Proof.
  destruct i as [v|vs]; cbn; [apply encode_value_printable|].
  intros (ts & Hts & [= <-])%bind_ok.
  rewrite !all_chars_app, all_chars_join; eauto using encode_values_printable.
Qed.

Lemma encode_pairs_printable (d : dict) (ts : list string) :
  encode_pairs d = Ok ts → Forall (λ t, all_chars printable t = true) ts.
Proof.
  revert ts. induction d as [|[k i] d IH]; intros ts; cbn.
  - intros [= <-]. constructor.
  - intros (t & Ht & (ts' & Hts & [= <-])%bind_ok)%bind_ok.
    constructor; [|by apply IH].
    by rewrite !all_chars_app, basestring_printable,
      (encode_item_printable i t).
Qed.

Lemma dumps_printable (d : dict) (text : string) :
  dumps d = Ok text → all_chars printable text = true.
Proof.
  unfold dumps. intros (ts & Hts & [= <-])%bind_ok.
  rewrite !all_chars_app, all_chars_join; eauto using encode_pairs_printable.
Qed.

End Printable.

Lemma app_nl_nonempty (text : string) : text +:+ nl ≠ "".
Proof. by destruct text. Qed.

(** ** What the configuration is read for *)
Section Configuration.

Variable cap : nat.

Lemma limit_of_insert (environ : gmap string string) (s : string) :
  comment_limit cap (<["REDDIT_COMMENT_LIMIT" := s]> environ) = int cap s.
Proof. rewrite limit_insert. by destruct s. Qed.

(** The run is fixed by the presence of the credentials, the client they
    build, the sort mode and the limit. *)
Lemma run_script_config praw argv (e1 e2 : gmap string string) :
  present (e1 !! "REDDIT_CLIENT_ID") = present (e2 !! "REDDIT_CLIENT_ID") →
  present (e1 !! "REDDIT_CLIENT_SECRET")
  = present (e2 !! "REDDIT_CLIENT_SECRET") →
  (∀ p, connect p e1 = connect p e2) →
  comment_sort e1 = comment_sort e2 →
  comment_limit cap e1 = comment_limit cap e2 →
  run (script cap praw argv e1) = run (script cap praw argv e2).
Proof.
  intros H1 H2 H3 H4 H5. destruct praw as [p|]; [|reflexivity].
  cbn [script]. rewrite !run_main, H1, H2.
  destruct (argv !! 1%nat) as [url|]; [|reflexivity].
  unfold fetched. by rewrite H3, H4, H5.
Qed.

End Configuration.

(** ** Valid input *)
Section HappyPath.



End HappyPath.

(** ** Decimal text read back *)
Section RoundTrip.

Variable cap : nat.

Lemma uint_value_acc (d : Decimal.uint) (a : positive) :
  uint_value (Z.pos a) d = Z.pos (Pos.of_uint_acc d a).
Proof.
  revert a. induction d; intros a; cbn [uint_value Pos.of_uint_acc];
    try reflexivity;
    match goal with
    | |- uint_value ?x _ = _ =>
        match goal with
        | |- _ = Z.pos (Pos.of_uint_acc _ ?y) =>
            replace x with (Z.pos y) by lia; apply IHd
        end
    end.
Qed.

Lemma uint_value_zero (d : Decimal.uint) :
  uint_value 0 d = Z.of_N (Pos.of_uint d).
Proof.
  induction d; cbn [uint_value Pos.of_uint]; try reflexivity;
    try (exact IHd); cbn [Z.mul Z.add Z.of_N]; apply uint_value_acc.
Qed.

Lemma uint_value_to_uint (p : positive) :
  uint_value 0 (Pos.to_uint p) = Z.pos p.
Proof. by rewrite uint_value_zero, DecimalPos.Unsigned.of_to. Qed.

Lemma scan_digits_uint (d : Decimal.uint) (n : nat) (acc : Z) :
  scan_digits cap (NilEmpty.string_of_uint d) false n acc
  = scan_end cap false (n + Decimal.nb_digits d) (uint_value acc d) "".
Proof.
  revert n acc. induction d; intros n acc;
    cbn [NilEmpty.string_of_uint Decimal.nb_digits uint_value];
    [by rewrite Nat.add_0_r|..];
    cbn [scan_digits]; rewrite IHd; f_equal; lia.
Qed.

Lemma int_unsigned (c : ascii) (r : string) :
  is_digit c = true →
  int cap (String c r)
  = match scan_digits cap (String c r) false 0 0 with
    | Some (n, rest) =>
        if str_nonempty (lstrip rest) then None else Some (1 * n)
    | None => None
    end.
Proof.
  destruct c as [[] [] [] [] [] [] [] []]; try discriminate; reflexivity.
Qed.

Lemma int_negative (c : ascii) (r : string) :
  is_digit c = true →
  int cap (String "-" (String c r))
  = match scan_digits cap (String c r) false 0 0 with
    | Some (n, rest) =>
        if str_nonempty (lstrip rest) then None else Some (-1 * n)
    | None => None
    end.
Proof.
  destruct c as [[] [] [] [] [] [] [] []]; try discriminate; reflexivity.
Qed.

Lemma uint_length (d : Decimal.uint) :
  String.length (NilEmpty.string_of_uint d) = Decimal.nb_digits d.
Proof. induction d; cbn; congruence. Qed.

Lemma under_cap (n : nat) :
  cap = 0%nat ∨ (n ≤ cap)%nat → over_cap cap n = false.
Proof.
  unfold over_cap. intros [-> | H]; [by rewrite andb_false_r|].
  apply andb_false_iff. right. apply Nat.ltb_ge. lia.
Qed.

Lemma int_digits (d : Decimal.uint) :
  d ≠ Decimal.Nil →
  over_cap cap (Decimal.nb_digits d) = false →
  int cap (NilEmpty.string_of_uint d) = Some (uint_value 0 d)
  ∧ int cap (String "-" (NilEmpty.string_of_uint d)) = Some (- uint_value 0 d).
Proof.
  intros Hd Hcap.
  assert (scan_digits cap (NilEmpty.string_of_uint d) false 0 0
          = Some (uint_value 0 d, "")) as Hscan.
  { rewrite scan_digits_uint. unfold scan_end. cbn [Nat.add]. rewrite Hcap.
    destruct d; [done|..]; reflexivity. }
  destruct d; [done|..]; cbn [NilEmpty.string_of_uint] in *;
    rewrite int_unsigned, int_negative, Hscan by reflexivity;
    cbn [lstrip str_nonempty]; split; f_equal; lia.
Qed.

Lemma string_of_nonnil (d : Decimal.uint) :
  d ≠ Decimal.Nil → NilZero.string_of_uint d = NilEmpty.string_of_uint d.
Proof. by destruct d. Qed.

(** Reading back the decimal text of an integer gives the integer, as
    long as the cap lets its digits through. *)
Lemma int_dec (z : Z) :
  cap = 0%nat ∨ (String.length (dec (Z.abs z)) ≤ cap)%nat →
  int cap (dec z) = Some z.
Proof.
  unfold dec. destruct z as [|p|p]; [reflexivity|..];
    [change (Z.abs (Z.pos p)) with (Z.pos p)
    |change (Z.abs (Z.neg p)) with (Z.pos p)];
    cbn [Z.to_int NilZero.string_of_int];
    pose proof (DecimalPos.Unsigned.to_uint_nonnil p) as Hp;
    rewrite !string_of_nonnil, uint_length by done;
    intros Hcap%under_cap;
    destruct (int_digits (Pos.to_uint p) Hp Hcap) as [Hpos Hneg];
    rewrite uint_value_to_uint in *; assumption.
Qed.

End RoundTrip.

(** ** Properties beyond the specification's list *)

(** X1. Under a positive limit [n] the loop renders, in order, the first
    [n] comments that have a body (all of them when there are fewer),
    and fails exactly when one of those cannot be rendered. *)
Theorem positive_limit_takes_prefix (cap : nat) (environ : gmap string string) (n : Z)
    (nodes : list object) :
  comment_limit cap environ = Some n →
  0 < n →
  comments_loop (comment_limit cap environ) nodes []
  = mapM render_comment (take (Z.to_nat n) (List.filter has_body nodes)).
Proof.
  intros -> Hn. rewrite loop_take by (cbn; lia). cbn [length].
  rewrite Nat.sub_0_r. apply bind_ret_nil.
Qed.

Lemma positive_limit_takes_prefix_witness :
  comments_loop
    (comment_limit 4300 (<["REDDIT_COMMENT_LIMIT" := "2"]> Examples.credentials))
    [Examples.alice; Examples.blank; Examples.ghost; Examples.alice] []
  = mapM render_comment
      (take (Z.to_nat 2)
         (List.filter has_body
            [Examples.alice; Examples.blank; Examples.ghost; Examples.alice])).
Proof.
  apply (positive_limit_takes_prefix 4300 (<["REDDIT_COMMENT_LIMIT" := "2"]> Examples.credentials) 2
           [Examples.alice; Examples.blank; Examples.ghost; Examples.alice]);
    [reflexivity | lia].
Defined.

(** X2. Once a positive limit is reached the rest of the sequence is
    never looked at: whatever follows, even a node that could not be
    rendered, leaves the result as it is. *)
Theorem nodes_after_limit_not_inspected (cap : nat) (environ : gmap string string)
    (n : Z) (before after : list object) (out : list string) :
  comment_limit cap environ = Some n →
  0 < n →
  comments_loop (comment_limit cap environ) before [] = Ok out →
  Z.of_nat (length out) = n →
  comments_loop (comment_limit cap environ) (before ++ after) [] = Ok out.
Proof.
  intros -> Hn Hout Hlen. rewrite loop_take in * by (cbn; lia).
  cbn [length] in *. rewrite Nat.sub_0_r, bind_ret_nil in *.
  rewrite List.filter_app, take_app_le; [done|].
  apply mapM_ok_length in Hout. rewrite length_take in Hout. lia.
Qed.

Lemma nodes_after_limit_not_inspected_witness :
  comments_loop
    (comment_limit 4300 (<["REDDIT_COMMENT_LIMIT" := "1"]> Examples.credentials))
    ([Examples.alice] ++ [Examples.orphan]) []
  = Ok ["u/alice (score: 5)" +:+ nl +:+ "first"].
Proof.
  apply (nodes_after_limit_not_inspected 4300 (<["REDDIT_COMMENT_LIMIT" := "1"]> Examples.credentials) 1
           [Examples.alice] [Examples.orphan]);
    [reflexivity | lia | reflexivity | reflexivity].
Defined.

(** X3. A positive limit that is at least the number of comments with a
    body changes nothing: the loop gives what it gives without a limit,
    errors included. *)
Theorem large_limit_is_no_limit (cap : nat) (environ : gmap string string) (n : Z)
    (nodes : list object) :
  comment_limit cap environ = Some n →
  0 < n →
  Z.of_nat (length (List.filter has_body nodes)) ≤ n →
  comments_loop (comment_limit cap environ) nodes []
  = comments_loop None nodes [].
Proof.
  intros -> Hn Hle. rewrite loop_take by (cbn; lia).
  rewrite loop_unlimited by done. cbn [length].
  by rewrite take_ge by lia.
Qed.

Lemma large_limit_is_no_limit_witness :
  comments_loop
    (comment_limit 4300 (<["REDDIT_COMMENT_LIMIT" := "2"]> Examples.credentials))
    [Examples.alice; Examples.placeholder; Examples.ghost] []
  = comments_loop None
      [Examples.alice; Examples.placeholder; Examples.ghost] [].
Proof.
  apply (large_limit_is_no_limit 4300 (<["REDDIT_COMMENT_LIMIT" := "2"]> Examples.credentials) 2
           [Examples.alice; Examples.placeholder; Examples.ghost]);
    [reflexivity | lia | vm_compute; discriminate].
Defined.

(** X5. Leaving the user agent or the sort mode unset is the same as
    setting it to its default, [twx-reddit/0.1] and [confidence]. *)
Theorem defaults_equal_explicit_values (cap : nat) (praw : option Praw.client)
    (argv : list string) (environ : gmap string string) :
  run (script cap praw argv (<["REDDIT_USER_AGENT" := "twx-reddit/0.1"]> environ))
  = run (script cap praw argv (delete "REDDIT_USER_AGENT" environ))
  ∧ run (script cap praw argv (<["REDDIT_COMMENT_SORT" := "confidence"]> environ))
    = run (script cap praw argv (delete "REDDIT_COMMENT_SORT" environ)).
Proof.
  split; apply run_script_config;
    unfold connect, comment_sort, comment_limit; intros;
    rewrite ?lookup_insert_eq, ?lookup_delete_eq,
      ?lookup_insert_ne, ?lookup_delete_ne by done; reflexivity.
Qed.

(** X6. Only what [int] makes of the limit value matters: under one
    interpreter (one digit cap), two spellings that [int] reads alike
    (white space around, a plus sign, leading zeros, underscores) give
    the same run. *)
Theorem limit_matters_by_value (cap : nat) (praw : option Praw.client)
    (argv : list string) (environ : gmap string string) (s1 s2 : string) :
  int cap s1 = int cap s2 →
  run (script cap praw argv (<["REDDIT_COMMENT_LIMIT" := s1]> environ))
  = run (script cap praw argv (<["REDDIT_COMMENT_LIMIT" := s2]> environ)).
Proof.
  intros H. apply run_script_config; rewrite ?limit_of_insert; try done;
    unfold connect, comment_sort; intros;
    by rewrite ?lookup_insert_ne by done.
Qed.

Lemma limit_matters_by_value_witness :
  run (script 4300 (Some Examples.online) Examples.argv
         (<["REDDIT_COMMENT_LIMIT" := " +0_1 "]> Examples.credentials))
  = run (script 4300 (Some Examples.online) Examples.argv
           (<["REDDIT_COMMENT_LIMIT" := "1"]> Examples.credentials)).
Proof.
  apply (limit_matters_by_value 4300 (Some Examples.online) Examples.argv
           Examples.credentials " +0_1 " "1").
  reflexivity.
Defined.

(** X7. A limit value holding any character other than white space, a
    digit, an underscore or a sign is ignored: the run is the run without
    the variable. *)
Theorem foreign_character_voids_limit (cap : nat) (praw : option Praw.client)
    (argv : list string) (environ : gmap string string)
    (s : string) (c : ascii) :
  contains c s = true →
  int_char c = false →
  run (script cap praw argv (<["REDDIT_COMMENT_LIMIT" := s]> environ))
  = run (script cap praw argv (delete "REDDIT_COMMENT_LIMIT" environ)).
Proof.
  intros Hc Hn. apply run_limit_insert_delete. intros nodes.
  rewrite (int_rejects cap s c Hc Hn). by destruct (str_nonempty s).
Qed.

Lemma foreign_character_voids_limit_witness :
  run (script 4300 (Some Examples.online) Examples.argv
         (<["REDDIT_COMMENT_LIMIT" := "1.0"]> Examples.credentials))
  = run (script 4300 (Some Examples.online) Examples.argv
           (delete "REDDIT_COMMENT_LIMIT" Examples.credentials)).
Proof.
  apply (foreign_character_voids_limit 4300 (Some Examples.online) Examples.argv
           Examples.credentials "1.0" "."); reflexivity.
Defined.

(** X8. Only the first argument is read: the program name and whatever
    follows the URL do not change the run. *)
Theorem extra_arguments_are_ignored (cap : nat) (praw : option Praw.client)
    (argv argv' : list string) (environ : gmap string string) :
  argv !! 1%nat = argv' !! 1%nat →
  run (script cap praw argv environ) = run (script cap praw argv' environ).
Proof.
  intros H. destruct praw as [p|]; [|reflexivity].
  cbn [script]. by rewrite !run_main, H.
Qed.

Lemma extra_arguments_are_ignored_witness :
  run (script 4300 (Some Examples.online)
         ["fetch_reddit.py"; "https://redd.it/abc"; "--verbose"; "x"]
         Examples.credentials)
  = run (script 4300 (Some Examples.online) ["other.py"; "https://redd.it/abc"]
           Examples.credentials).
Proof.
  apply (extra_arguments_are_ignored 4300 (Some Examples.online)
           ["fetch_reddit.py"; "https://redd.it/abc"; "--verbose"; "x"]
           ["other.py"; "https://redd.it/abc"] Examples.credentials).
  reflexivity.
Defined.

(** X9. Without the URL argument the process writes the usage line, and
    nothing else, to standard error and ends with status 1, whatever the
    environment and the client: the argument is checked first. *)
Theorem missing_url_prints_usage (cap : nat) (praw : Praw.client)
    (argv : list string) (environ : gmap string string) :
  (length argv < 2)%nat →
  run (script cap (Some praw) argv environ) = Outcome 1 "" usage.
Proof.
  intros H. cbn [script]. rewrite run_main.
  by rewrite (lookup_ge_None_2 argv 1) by lia.
Qed.

Lemma missing_url_prints_usage_witness :
  run (script 4300 (Some Examples.online) ["fetch_reddit.py"] ∅)
  = Outcome 1 "" usage.
Proof.
  apply (missing_url_prints_usage 4300 Examples.online ["fetch_reddit.py"] ∅).
  cbn. lia.
Defined.

(** X10. A credential that is set but empty counts as missing: with the URL
    given, the process writes the credentials line to standard error and
    ends with status 1 without calling the client. *)
Theorem blank_credential_is_missing (cap : nat) (praw : Praw.client)
    (argv : list string) (environ : gmap string string) (url : string) :
  argv !! 1%nat = Some url →
  environ !! "REDDIT_CLIENT_ID" = None
  ∨ environ !! "REDDIT_CLIENT_ID" = Some ""
  ∨ environ !! "REDDIT_CLIENT_SECRET" = None
  ∨ environ !! "REDDIT_CLIENT_SECRET" = Some "" →
  run (script cap (Some praw) argv environ) = Outcome 1 "" missing_credentials.
Proof.
  intros Hurl H. cbn [script]. rewrite run_main, Hurl.
  destruct H as [-> | [-> | [-> | ->]]]; cbn; by rewrite ?andb_false_r.
Qed.

Lemma blank_credential_is_missing_witness :
  run (script 4300 (Some Examples.online) Examples.argv
         (<["REDDIT_CLIENT_SECRET" := ""]> Examples.credentials))
  = Outcome 1 "" missing_credentials.
Proof.
  apply (blank_credential_is_missing 4300 Examples.online Examples.argv
           (<["REDDIT_CLIENT_SECRET" := ""]> Examples.credentials)
           "https://redd.it/abc"); [reflexivity|].
  right; right; right; reflexivity.
Defined.

(** X11. The exit status is 0 or 1; standard output is empty exactly when
    it is 1; and on status 0 the script cap has written nothing to standard
    error. *)
Theorem status_tells_output (cap : nat) (praw : option Praw.client)
    (argv : list string) (environ : gmap string string) :
  (status (run (script cap praw argv environ)) = 0
   ∨ status (run (script cap praw argv environ)) = 1)
  ∧ (output (run (script cap praw argv environ)) = ""
     ↔ status (run (script cap praw argv environ)) = 1)
  ∧ (status (run (script cap praw argv environ)) = 0 →
     errors (run (script cap praw argv environ)) = "").
Proof.
  destruct (run_script_cases cap praw argv environ)
    as [[Hs Ho] | (p & url & text & _ & _ & _ & ->)].
  - rewrite Hs, Ho. repeat split; auto; discriminate.
  - cbn. repeat split; auto; try discriminate.
    intros H. by destruct (app_nl_nonempty text).
Qed.

Lemma status_tells_output_witness :
  errors (run (script 4300 (Some Examples.online) Examples.argv
                 Examples.credentials)) = "".
Proof.
  apply (proj2 (proj2 (status_tells_output 4300 (Some Examples.online)
                         Examples.argv Examples.credentials))).
  reflexivity.
Defined.

(** X12. On success standard output is printable ASCII followed by one line
    break: every other character of the payload is escaped. *)
Theorem success_output_is_ascii (cap : nat) (praw : option Praw.client)
    (argv : list string) (environ : gmap string string) :
  status (run (script cap praw argv environ)) = 0 →
  ∃ text,
    output (run (script cap praw argv environ)) = text +:+ nl
    ∧ all_chars printable text = true.
Proof.
  intros Hs.
  destruct (run_script_cases cap praw argv environ)
    as [[H _] | (p & url & text & _ & _ & Hf & Hrun)];
    [rewrite H in Hs; discriminate|].
  exists text. rewrite Hrun. split; [reflexivity|].
  apply fetched_ok_dumps in Hf as [d Hd]. by apply (dumps_printable d).
Qed.

Lemma success_output_is_ascii_witness :
  ∃ text,
    output (run (script 4300 (Some Examples.online) Examples.argv
                   Examples.credentials)) = text +:+ nl
    ∧ all_chars printable text = true.
Proof.
  apply (success_output_is_ascii 4300 (Some Examples.online) Examples.argv
           Examples.credentials).
  reflexivity.
Defined.



(** X15. [render_comment] reads the attributes [author], [score],
    [depth] and [body] and no other: two nodes that agree on these render
    alike. *)
Theorem render_reads_four_attributes (c1 c2 : object) :
  (∀ name, name ∈ ["author"; "score"; "depth"; "body"] →
           c1 !! name = c2 !! name) →
  render_comment c1 = render_comment c2.
Proof.
  intros H. unfold render_comment, attr, getattr.
  rewrite (H "author"), (H "score"), (H "depth"), (H "body") by set_solver.
  reflexivity.
Qed.

Lemma render_reads_four_attributes_witness :
  render_comment (<["id" := PyStr "t1_x"]> Examples.alice)
  = render_comment Examples.alice.
Proof.
  apply (render_reads_four_attributes (<["id" := PyStr "t1_x"]> Examples.alice)
           Examples.alice).
  intros name Hname. apply lookup_insert_ne. intros <-.
  repeat (apply elem_of_cons in Hname as [Hname | Hname]; [discriminate|]).
  by apply elem_of_nil in Hname.
Defined.

(** X16. Setting the limit variable to the decimal text of an integer
    configures exactly that integer, provided the interpreter's digit cap
    is lifted or the integer has no more digits than the cap. *)
Theorem decimal_limit_is_read_back (cap : nat)
    (environ : gmap string string) (z : Z) :
  cap = 0%nat ∨ (String.length (dec (Z.abs z)) ≤ cap)%nat →
  comment_limit cap (<["REDDIT_COMMENT_LIMIT" := dec z]> environ) = Some z.
Proof.
  intros Hcap. rewrite limit_insert, int_dec by done.
  assert (str_nonempty (dec z) = true) as ->; [|reflexivity].
  by apply (int_nonempty cap (dec z) z), int_dec.
Qed.

Lemma decimal_limit_is_read_back_witness :
  comment_limit 4300
    (<["REDDIT_COMMENT_LIMIT" := dec (-250)]> Examples.credentials)
  = Some (-250).
Proof.
  apply (decimal_limit_is_read_back 4300 Examples.credentials (-250)).
  right. vm_compute. lia.
Defined.
